(** * embeddings_faiss.py: a flat L2 index with a metadata side file

    The script has two modes.  [index] reads a payload of chunks, stacks
    their embeddings into a 2-D array, adds them to a [faiss.IndexFlatL2],
    writes the index to [<dir>/faiss.index] and then dumps one record per
    chunk to [<dir>/meta.json].  [query] reads the index back, asks it for
    the [k] nearest neighbours of one embedding and prints [meta[i]] for
    every label [i] that the search returned.

    Modelling decisions.
    - Documents are taken after [json.load]/[json.loads]: a chunk and a
      query are the dicts the script indexes with fixed keys; an absent
      key is [None] and raises [KeyError] where the script reads it.  An
      embedding, when present, is a list of numbers and [k] an integer.
    - Numbers are exact rationals; the rounding of [astype("float32")] and
      of the distance arithmetic is left out.
    - numpy, faiss and the Python list are modelled by the behaviour the
      script relies on: [np.array] of a ragged list raises [ValueError],
      an empty list gives a 1-D array, [IndexFlatL2] keeps one flat
      row-major buffer, [search] asserts on dimension and on [k > 0] and
      fills missing neighbours with label [-1], and a list accepts
      negative subscripts.
    - The file system is a finite map from path to content; directories
      and permissions are not modelled.  The two branches of the script
      are two functions; the dispatch on [sys.argv[1]] and the parsing of
      the command line are not modelled.  Failures are uncaught Python
      exceptions and leave the file system as it was when they were
      raised. *)

From Stdlib Require Import ZArith QArith Ascii Sorted Permutation.
From stdpp Require Import base gmap strings list fin_maps sorting.

Local Open Scope string_scope.
Local Open Scope list_scope.
Local Open Scope Z_scope.

(** ** Documents *)

#[warnings="-register-all"]
Inductive json : Type :=
  | JNull
  | JBool (b : bool)
  | JNum (q : Q)
  | JStr (s : string)
  | JArr (l : list json)
  | JObj (l : list (string * json)).

(** One element of [data["chunks"]]. *)
Record chunk := Chunk {
  c_embedding : option (list Q);
  c_text : option json;
  c_metadata : option json;
  c_context : option json
}.

(** The document in the payload file. *)
Record payload := Payload { p_chunks : option (list chunk) }.

(** The document in [sys.argv[2]] of the query mode. *)
Record query_doc := QueryDoc {
  q_embedding : option (list Q);
  q_k : option Z;
  q_context : option json
}.

(** ** Exceptions and results *)

Inductive exn : Type :=
  | KeyError
  | IndexError
  | ValueError
  | TypeError
  | AssertionError
  | RuntimeError
  | FileNotFoundError.

Definition exn_name (e : exn) : string :=
  match e with
  | KeyError => "KeyError"
  | IndexError => "IndexError"
  | ValueError => "ValueError"
  | TypeError => "TypeError"
  | AssertionError => "AssertionError"
  | RuntimeError => "RuntimeError"
  | FileNotFoundError => "FileNotFoundError"
  end.

Inductive result (A : Type) : Type :=
  | Ok (a : A)
  | Raise (e : exn).
Arguments Ok {A} a.
Arguments Raise {A} e.

(** The error kinds of the design document, by name.  An operation reports
    a kind when it ends in an exception of that name. *)
Definition DimensionMismatch : string := "DimensionMismatch".
Definition EmptyBatch : string := "EmptyBatch".
Definition OutOfRange : string := "OutOfRange".

Definition fails_with {A} (r : result A) (kind : string) : Prop :=
  ∃ e, r = Raise e ∧ exn_name e = kind.


(** ** Python subscripts *)

(** [d[key]] on a dict read from JSON, for a key that is a string. *)
Definition dict_getitem {A} (field : option A) : result A :=
  match field with
  | Some v => Ok v
  | None => Raise KeyError
  end.

(** [l[i]] on a list: a negative [i] counts from the end. *)
Definition list_getitem {A} (l : list A) (i : Z) : result A :=
  let n := Z.of_nat (length l) in
  let j := if 0 <=? i then i else n + i in
  if (0 <=? j) && (j <? n) then
    match l !! Z.to_nat j with
    | Some x => Ok x
    | None => Raise IndexError
    end
  else Raise IndexError.

(** [meta[i]] where [meta] is whatever [json.load] returned and [i] an
    integer label. *)
Definition json_getitem (meta : json) (i : Z) : result json :=
  match meta with
  | JArr l => list_getitem l i
  | JStr s =>
      match list_getitem (String.list_ascii_of_string s) i with
      | Ok c => Ok (JStr (String c EmptyString))
      | Raise e => Raise e
      end
  | JObj _ => Raise KeyError
  | JNull | JBool _ | JNum _ => Raise TypeError
  end.

(** [os.path.join(a, b)]. *)
Definition ends_with_slash (a : string) : bool :=
  match last (String.list_ascii_of_string a) with
  | Some c => if Ascii.ascii_dec c "/"%char then true else false
  | None => false
  end.

Definition path_join (a b : string) : string :=
  match b with
  | String c _ =>
      if Ascii.ascii_dec c "/"%char then b
      else if String.eqb a "" || ends_with_slash a then a +:+ b
      else a +:+ "/" +:+ b
  | EmptyString =>
      if String.eqb a "" || ends_with_slash a then a else a +:+ "/"
  end.

(** ** numpy *)

Record ndarray := NdArray {
  shape : list nat;
  data : list Q
}.

(** [np.array(rows)] for a list of lists of numbers. *)
Definition np_array (rows : list (list Q)) : result ndarray :=
  match rows with
  | [] => Ok (NdArray [0%nat] [])
  | r :: _ =>
      if forallb (λ r', Nat.eqb (length r') (length r)) rows
      then Ok (NdArray [length rows; length r] (concat rows))
      else Raise ValueError
  end.

(** [a.shape[i]]: subscript of a tuple. *)
Definition shape_getitem (a : ndarray) (i : Z) : result nat :=
  list_getitem (shape a) i.

(** ** faiss.IndexFlatL2 *)

Record IndexFlatL2 := Index {
  d : nat;
  ntotal : nat;
  xb : list Q
}.

Definition new_IndexFlatL2 (dim : nat) : IndexFlatL2 := Index dim 0 [].

(** [index.add(x)]: the wrapper unpacks [n, d = x.shape] and asserts that
    [d] is the dimension of the index. *)
Definition add (index : IndexFlatL2) (x : ndarray) : result IndexFlatL2 :=
  match shape x with
  | [n; dx] =>
      if Nat.eqb dx (d index)
      then Ok (Index (d index) (ntotal index + n) (xb index ++ data x))
      else Raise AssertionError
  | _ => Raise ValueError
  end.

(** The vector stored at position [i]: [d] numbers from offset [i * d]. *)
Definition reconstruct (index : IndexFlatL2) (i : nat) : list Q :=
  take (d index) (drop (i * d index) (xb index)).

(** Squared Euclidean distance. *)
Fixpoint fvec_L2sqr (x y : list Q) : Q :=
  match x, y with
  | a :: x', b :: y' => ((a - b) * (a - b) + fvec_L2sqr x' y')%Q
  | _, _ => 0%Q
  end.

(** Ascending by distance; among equal distances the earlier position
    stays first. *)
Fixpoint insert_by_distance (e : nat * Q) (l : list (nat * Q)) : list (nat * Q) :=
  match l with
  | [] => [e]
  | e' :: l' =>
      if Qle_bool (snd e) (snd e') then e :: l
      else e' :: insert_by_distance e l'
  end.

Definition sort_by_distance (l : list (nat * Q)) : list (nat * Q) :=
  foldr insert_by_distance [] l.

(** The distance from the query [x] to the vector at position [i], and
    the linear scan that pairs every position with it. *)
Definition distance_to (index : IndexFlatL2) (x : list Q) (i : nat) : Q :=
  fvec_L2sqr x (reconstruct index i).

Definition distances (index : IndexFlatL2) (x : list Q) : list (nat * Q) :=
  map (λ i, (i, distance_to index x i)) (seq 0 (ntotal index)).

(** [D, I = index.search(x, k)] for a single query row; the results are
    [D[0]] and [I[0]].  A missing neighbour has label [-1] and no finite
    distance. *)
Definition search (index : IndexFlatL2) (x : list Q) (k : Z)
  : result (list (option Q) * list Z) :=
  if negb (Nat.eqb (length x) (d index)) then Raise AssertionError
  else if negb (0 <? k) then Raise AssertionError
  else
    let best := take (Z.to_nat k) (sort_by_distance (distances index x)) in
    let missing := (Z.to_nat k - length best)%nat in
    Ok (map (λ e, Some (snd e)) best ++ replicate missing None,
        map (λ e, Z.of_nat (fst e)) best ++ replicate missing (-1)).

(** ** The file system and the script's effects *)

Inductive file : Type :=
  | FaissFile (index : IndexFlatL2)
  | JsonFile (doc : json).

(** A computation reads and writes files and ends in a value or in an
    exception; the files written before an exception stay written. *)
Definition io (A : Type) : Type :=
  gmap string file → gmap string file * result A.

Definition ret {A} (a : A) : io A := λ fs, (fs, Ok a).

Definition bind {A B} (m : io A) (f : A → io B) : io B :=
  λ fs,
    match m fs with
    | (fs', Ok a) => f a fs'
    | (fs', Raise e) => (fs', Raise e)
    end.

Definition lift {A} (r : result A) : io A := λ fs, (fs, r).

Declare Scope io_scope.
Delimit Scope io_scope with io.
Notation "x <- m ;; k" := (bind m (λ x, k))
  (at level 100, m at next level, right associativity) : io_scope.
Notation "m ;;; k" := (bind m (λ _, k))
  (at level 100, right associativity) : io_scope.

(** A list comprehension whose element expression may raise. *)
Fixpoint comprehension {A B} (f : A → result B) (l : list A) : result (list B) :=
  match l with
  | [] => Ok []
  | a :: l' =>
      match f a with
      | Raise e => Raise e
      | Ok b =>
          match comprehension f l' with
          | Raise e => Raise e
          | Ok bs => Ok (b :: bs)
          end
      end
  end.

Definition write_index (index : IndexFlatL2) (path : string) : io unit :=
  λ fs, (<[path := FaissFile index]> fs, Ok ()).

Definition read_index (path : string) : io IndexFlatL2 :=
  λ fs,
    match fs !! path with
    | Some (FaissFile index) => (fs, Ok index)
    | Some (JsonFile _) | None => (fs, Raise RuntimeError)
    end.

(** [json.dump(doc, open(path, "w"))]. *)
Definition json_dump (doc : json) (path : string) : io unit :=
  λ fs, (<[path := JsonFile doc]> fs, Ok ()).

(** [json.load(open(path))]. *)
Definition json_load (path : string) : io json :=
  λ fs,
    match fs !! path with
    | Some (JsonFile doc) => (fs, Ok doc)
    | Some (FaissFile _) => (fs, Raise ValueError)
    | None => (fs, Raise FileNotFoundError)
    end.

Definition index_file (index_dir : string) : string :=
  path_join index_dir "faiss.index".
Definition meta_file (index_dir : string) : string :=
  path_join index_dir "meta.json".

(** [{"text": c["text"], "metadata": c["metadata"], "context": c["context"]}] *)
Definition record_of (c : chunk) : result json :=
  match dict_getitem (c_text c) with
  | Raise e => Raise e
  | Ok t =>
      match dict_getitem (c_metadata c) with
      | Raise e => Raise e
      | Ok m =>
          match dict_getitem (c_context c) with
          | Raise e => Raise e
          | Ok x => Ok (JObj [("text", t); ("metadata", m); ("context", x)])
          end
      end
  end.

(** ** The two modes *)

Local Open Scope io_scope.

(** [mode == "index"]; the value is the count in the printed message. *)
Definition index_mode (data : payload) (index_dir : string) : io nat :=
  chunks <- lift (dict_getitem (p_chunks data));;
  rows <- lift (comprehension (λ c, dict_getitem (c_embedding c)) chunks);;
  embeddings <- lift (np_array rows);;
  dim <- lift (shape_getitem embeddings 1);;
  index <- lift (add (new_IndexFlatL2 dim) embeddings);;
  write_index index (index_file index_dir);;;
  meta <- lift (comprehension record_of chunks);;
  json_dump (JArr meta) (meta_file index_dir);;;
  ret (length chunks).

(** [mode == "query"]; the value is the document printed by
    [print(json.dumps(results))]. *)
Definition query_mode (query_json : query_doc) (index_dir : string) : io json :=
  q_emb <- lift (dict_getitem (q_embedding query_json));;
  k <- lift (dict_getitem (q_k query_json));;
  context <- lift (dict_getitem (q_context query_json));;
  index <- read_index (index_file index_dir);;
  DI <- lift (search index q_emb k);;
  meta <- json_load (meta_file index_dir);;
  results <- lift (comprehension (json_getitem meta) (snd DI));;
  ret (JArr results).

Local Close Scope io_scope.

(** ** The scenario of the design document *)

Definition scenario_chunk (e : list Q) (t : string) (m x : json) : chunk :=
  Chunk (Some e) (Some (JStr t)) (Some m) (Some x).

Definition scenario_payload (m1 x1 m2 x2 m3 x3 : json) : payload :=
  Payload (Some [scenario_chunk [1; 0]%Q "a" m1 x1;
                 scenario_chunk [0; 1]%Q "b" m2 x2;
                 scenario_chunk [5; 5]%Q "c" m3 x3]).

Definition scenario_record (t : string) (m x : json) : json :=
  JObj [("text", JStr t); ("metadata", m); ("context", x)].

Definition scenario_query (k : Z) (context : json) : query_doc :=
  QueryDoc (Some [9 # 10; 1 # 10]%Q) (Some k) (Some context).

Definition scenario_index : IndexFlatL2 :=
  Index 2 3 [1; 0; 0; 1; 5; 5]%Q.

(** The files after [index] on the scenario, run in directory idx. *)
Definition scenario_store : gmap string file :=
  fst (index_mode (scenario_payload JNull JNull JNull JNull JNull JNull)
         "idx" ∅).

(** A batch whose embeddings have two and one components. *)
Definition ragged_payload : payload :=
  Payload (Some [scenario_chunk [1; 0]%Q "a" JNull JNull;
                 scenario_chunk [1]%Q "b" JNull JNull]).

(** A query with three components and [k = 1]. *)
Definition long_query : query_doc :=
  QueryDoc (Some [1; 2; 3]%Q) (Some 1) (Some JNull).

(** A batch of one chunk that has an embedding and no text. *)
Definition textless_payload : payload :=
  Payload (Some [Chunk (Some [7; 7]%Q) None (Some JNull) (Some JNull)]).


(** ** Complete batches and the entries a search keeps *)



(** The (position, distance) entries that [search] keeps before padding. *)
Definition nearest (index : IndexFlatL2) (x : list Q) (k : Z) : list (nat * Q) :=
  take (Z.to_nat k) (sort_by_distance (distances index x)).

(** ** The command line *)

(** What the script prints. *)
Inductive stdout : Type :=
  | Nothing
  | Indexed (n : nat)
  | Results (doc : json).

Section CommandLine.

(** [json.load(open(payload))] and [json.loads(sys.argv[2])], read as the
    documents above.  Parsing is outside the model: both are parameters,
    the first one a function of the files it may read. *)
Variable load_payload : string → gmap string file → result payload.
Variable loads_query : string → result query_doc.

Local Open Scope io_scope.

(** The script from its first line: [mode = sys.argv[1]],
    [index_dir = sys.argv[-1]], then the branch for the mode; any other
    mode falls through both tests. *)
Definition main (argv : list string) : io stdout :=
  mode <- lift (list_getitem argv 1);;
  index_dir <- lift (list_getitem argv (-1));;
  if String.eqb mode "index" then
    payload <- lift (list_getitem argv 2);;
    data <- (λ fs, (fs, load_payload payload fs));;
    n <- index_mode data index_dir;;
    ret (Indexed n)
  else if String.eqb mode "query" then
    arg <- lift (list_getitem argv 2);;
    query_json <- lift (loads_query arg);;
    results <- query_mode query_json index_dir;;
    ret (Results results)
  else ret Nothing.

Local Close Scope io_scope.

End CommandLine.

(** A batch of one complete chunk, and a store whose metadata file is one
    record short of its index. *)
Definition single_payload : payload :=
  Payload (Some [scenario_chunk [7; 7]%Q "z" JNull JNull]).


(** * Properties *)

(** ** Ordering by distance *)

Lemma insert_by_distance_perm e l : insert_by_distance e l ≡ₚ e :: l.
Proof.
  induction l as [|e' l IH]; simpl; [done|].
  destruct (Qle_bool (snd e) (snd e')); [done|].
  rewrite IH. apply Permutation_swap.
Qed.

Lemma sort_by_distance_perm l : sort_by_distance l ≡ₚ l.
Proof.
  induction l as [|e l IH]; simpl; [done|].
  rewrite insert_by_distance_perm. by f_equiv.
Qed.



(** ** Search *)

Section Search.
Variable index : IndexFlatL2.
Variable x : list Q.



Lemma length_sorted_distances :
  length (sort_by_distance (distances index x)) = ntotal index.
Proof.
  rewrite sort_by_distance_perm. unfold distances.
  by rewrite length_map, length_seq.
Qed.


End Search.


(** ** List comprehensions *)

Section Comprehension.
Context {A B : Type} (f : A → result B).

Lemma comprehension_Ok l bs :
  comprehension f l = Ok bs ↔ Forall2 (λ a b, f a = Ok b) l bs.
Proof.
  revert bs. induction l as [|a l IH]; intros bs; simpl.
  - split; [intros [= <-]; constructor | by inv 1].
  - destruct (f a) as [b|e] eqn:Hfa.
    + destruct (comprehension f l) as [bs'|e] eqn:Hl.
      * split.
        -- intros [= <-]. constructor; [done|]. by apply IH.
        -- inv 1. f_equal. f_equal; [congruence|].
           match goal with H : Forall2 _ l _ |- _ => apply IH in H end.
           congruence.
      * split; [done|]. inv 1.
        match goal with H : Forall2 _ l _ |- _ => apply IH in H end.
        done.
    + split; [done|]. inv 1. congruence.
Qed.

Lemma comprehension_length l bs :
  comprehension f l = Ok bs → length bs = length l.
Proof. intros H%comprehension_Ok. symmetry. by eapply Forall2_length. Qed.



End Comprehension.

(** ** Rows of a flat buffer *)


Lemma forallb_length_eq (dm : nat) (rows : list (list Q)) :
  forallb (λ r', Nat.eqb (length r') dm) rows = true ↔
  Forall (λ r', length r' = dm) rows.
Proof.
  rewrite forallb_forall, Forall_forall.
  split; intros H r Hr.
  - apply Nat.eqb_eq, H. by apply list_elem_of_In.
  - apply Nat.eqb_eq, H. by apply list_elem_of_In.
Qed.

(** ** The two file names *)

Lemma append_inj_r (a s1 s2 : string) : a +:+ s1 = a +:+ s2 → s1 = s2.
Proof. induction a as [|c a IH]; simpl; [done|]. intros [= H]. auto. Qed.

Lemma index_file_ne_meta_file index_dir :
  index_file index_dir ≠ meta_file index_dir.
Proof.
  unfold index_file, meta_file, path_join.
  destruct (Ascii.ascii_dec "f" "/") as [?|_]; [done|].
  destruct (Ascii.ascii_dec "m" "/") as [?|_]; [done|].
  destruct (String.eqb index_dir "" || ends_with_slash index_dir).
  - intros H%append_inj_r. discriminate.
  - intros H%append_inj_r. discriminate.
Qed.

(** ** Building the index *)



Lemma index_mode_unfold data index_dir fs :
  index_mode data index_dir fs =
  match dict_getitem (p_chunks data) with
  | Raise e => (fs, Raise e)
  | Ok chunks =>
  match comprehension (λ c, dict_getitem (c_embedding c)) chunks with
  | Raise e => (fs, Raise e)
  | Ok rows =>
  match np_array rows with
  | Raise e => (fs, Raise e)
  | Ok embeddings =>
  match shape_getitem embeddings 1 with
  | Raise e => (fs, Raise e)
  | Ok dim =>
  match add (new_IndexFlatL2 dim) embeddings with
  | Raise e => (fs, Raise e)
  | Ok index =>
  match comprehension record_of chunks with
  | Raise e => (<[index_file index_dir := FaissFile index]> fs, Raise e)
  | Ok meta =>
      (<[meta_file index_dir := JsonFile (JArr meta)]>
         (<[index_file index_dir := FaissFile index]> fs),
       Ok (length chunks))
  end end end end end end.
Proof.
  unfold index_mode, bind, lift, ret, write_index, json_dump.
  destruct (dict_getitem (p_chunks data)) as [chunks|]; [|done].
  destruct (comprehension _ chunks) as [rows|]; [|done].
  destruct (np_array rows) as [embeddings|]; [|done].
  destruct (shape_getitem embeddings 1) as [dim|]; [|done].
  destruct (add _ embeddings) as [index|]; [|done].
  by destruct (comprehension record_of chunks).
Qed.





(** ** The index operation *)



(** C4, as the script has it.  An [index] run on a batch of zero chunks
    fails with [IndexError], raised where the dimension is read from the
    shape of the stacked embeddings, and writes neither file. *)
Theorem index_mode_empty_batch index_dir fs :
  index_mode (Payload (Some [])) index_dir fs = (fs, Raise IndexError).
Proof. reflexivity. Qed.

(** ** The query operation *)

Lemma query_mode_unfold query_json index_dir fs :
  query_mode query_json index_dir fs =
  match dict_getitem (q_embedding query_json) with
  | Raise e => (fs, Raise e)
  | Ok q_emb =>
  match dict_getitem (q_k query_json) with
  | Raise e => (fs, Raise e)
  | Ok k =>
  match dict_getitem (q_context query_json) with
  | Raise e => (fs, Raise e)
  | Ok _ =>
  match fs !! index_file index_dir with
  | Some (JsonFile _) | None => (fs, Raise RuntimeError)
  | Some (FaissFile index) =>
  match search index q_emb k with
  | Raise e => (fs, Raise e)
  | Ok DI =>
  match fs !! meta_file index_dir with
  | Some (FaissFile _) => (fs, Raise ValueError)
  | None => (fs, Raise FileNotFoundError)
  | Some (JsonFile meta) =>
  match comprehension (json_getitem meta) (snd DI) with
  | Raise e => (fs, Raise e)
  | Ok results => (fs, Ok (JArr results))
  end end end end end end end.
Proof.
  unfold query_mode, bind, lift, ret, read_index, json_load.
  destruct (dict_getitem (q_embedding query_json)) as [q_emb|]; [|done].
  destruct (dict_getitem (q_k query_json)) as [k|]; [|done].
  destruct (dict_getitem (q_context query_json)) as [context|]; [|done].
  destruct (fs !! index_file index_dir) as [[index|?]|]; [|done..].
  destruct (search index q_emb k) as [DI|]; [|done].
  destruct (fs !! meta_file index_dir) as [[?|meta]|]; [done| |done].
  by destruct (comprehension (json_getitem meta) (snd DI)).
Qed.

Lemma query_mode_read_only query_json index_dir fs :
  fst (query_mode query_json index_dir fs) = fs.
Proof.
  rewrite query_mode_unfold.
  repeat match goal with
         | |- context [match ?t with _ => _ end] => destruct t
         end; done.
Qed.

(** C10.  The context of a query does not influence it: two queries on
    the same files that agree on embedding and [k] and carry different
    context values end in the same files and the same output. *)
Theorem query_mode_context_irrelevant emb k (context1 context2 : json)
    index_dir fs :
  query_mode (QueryDoc emb k (Some context1)) index_dir fs
  = query_mode (QueryDoc emb k (Some context2)) index_dir fs.
Proof. by rewrite !query_mode_unfold. Qed.

(** C6, as the script has it.  Building from embeddings of differing
    lengths fails with the [ValueError] of [np.array] and writes nothing;
    querying a stored index with an embedding of another length fails
    with the [AssertionError] of the search wrapper. *)
Theorem dimension_mismatch_errors :
  (∀ data chunks vectors i j u v index_dir fs,
      p_chunks data = Some chunks →
      Forall2 (λ c w, c_embedding c = Some w) chunks vectors →
      vectors !! i = Some u → vectors !! j = Some v →
      length u ≠ length v →
      index_mode data index_dir fs = (fs, Raise ValueError))
  ∧ (∀ q_emb k context index index_dir fs,
      fs !! index_file index_dir = Some (FaissFile index) →
      length q_emb ≠ d index →
      query_mode (QueryDoc (Some q_emb) (Some k) (Some context)) index_dir fs
      = (fs, Raise AssertionError)).
Proof.
  split.
  - intros data chunks vectors i j u v index_dir fs Hchunks Hemb Hu Hv Hne.
    assert (comprehension (λ c, dict_getitem (c_embedding c)) chunks
            = Ok vectors) as Hrows.
    { apply comprehension_Ok. eapply Forall2_impl; [exact Hemb|].
      intros c w Hc. simpl in Hc. by rewrite Hc. }
    rewrite index_mode_unfold, Hchunks. simpl. rewrite Hrows.
    unfold np_array. destruct vectors as [|r rows]; [done|].
    destruct (forallb _ (r :: rows)) eqn:Hall; [|done].
    apply forallb_length_eq in Hall.
    rewrite Forall_forall in Hall.
    apply list_elem_of_lookup_2 in Hu, Hv.
    apply Hall in Hu, Hv. congruence.
  - intros q_emb k context index index_dir fs Hfile Hne.
    rewrite query_mode_unfold. simpl. rewrite Hfile.
    unfold search. apply Nat.eqb_neq in Hne. by rewrite Hne.
Qed.


(** ** The scenario *)

Lemma scenario_index_mode m1 x1 m2 x2 m3 x3 index_dir fs :
  index_mode (scenario_payload m1 x1 m2 x2 m3 x3) index_dir fs
  = (<[meta_file index_dir
       := JsonFile (JArr [scenario_record "a" m1 x1;
                          scenario_record "b" m2 x2;
                          scenario_record "c" m3 x3])]>
       (<[index_file index_dir := FaissFile scenario_index]> fs),
     Ok 3%nat).
Proof. by rewrite index_mode_unfold. Qed.

Lemma scenario_query_mode k context meta index_dir fs :
  query_mode (scenario_query k context) index_dir
    (<[meta_file index_dir := JsonFile meta]>
       (<[index_file index_dir := FaissFile scenario_index]> fs))
  = (<[meta_file index_dir := JsonFile meta]>
       (<[index_file index_dir := FaissFile scenario_index]> fs),
     match search scenario_index [9 # 10; 1 # 10]%Q k with
     | Raise e => Raise e
     | Ok DI =>
         match comprehension (json_getitem meta) (snd DI) with
         | Raise e => Raise e
         | Ok results => Ok (JArr results)
         end
     end).
Proof.
  rewrite query_mode_unfold. simpl dict_getitem. cbv iota beta.
  rewrite lookup_insert_ne by (apply not_eq_sym, index_file_ne_meta_file).
  rewrite !lookup_insert_eq.
  destruct (search scenario_index _ k) as [DI|]; [|done].
  by destruct (comprehension (json_getitem meta) (snd DI)).
Qed.

Lemma scenario_search_2 :
  search scenario_index [9 # 10; 1 # 10]%Q 2
  = Ok ([Some (200 # 10000); Some (16200 # 10000)]%Q, [0; 1]).
Proof. vm_compute. reflexivity. Qed.

Lemma scenario_search_5 :
  search scenario_index [9 # 10; 1 # 10]%Q 5
  = Ok ([Some (200 # 10000); Some (16200 # 10000); Some (408200 # 10000);
         None; None]%Q,
        [0; 1; 2; -1; -1]).
Proof. vm_compute. reflexivity. Qed.

(** C3.  End to end: after [index] on the three chunks with embeddings
    [1,0], [0,1], [5,5] and texts a, b, c, a query for [0.9,0.1] with
    [k = 2] prints the records of a and b, in that order, and nothing
    else: the printed document is the list of the two records, with no
    distance in it. *)
Theorem scenario_end_to_end m1 x1 m2 x2 m3 x3 context index_dir fs :
  snd (index_mode (scenario_payload m1 x1 m2 x2 m3 x3) index_dir fs)
  = Ok 3%nat
  ∧ snd (query_mode (scenario_query 2 context) index_dir
           (fst (index_mode (scenario_payload m1 x1 m2 x2 m3 x3)
                   index_dir fs)))
    = Ok (JArr [scenario_record "a" m1 x1; scenario_record "b" m2 x2]).
Proof.
  rewrite scenario_index_mode. split; [done|]. simpl fst.
  rewrite scenario_query_mode, scenario_search_2. done.
Qed.

(** C1, on the scenario.  With three stored vectors and [k = 5] the query
    does not stop at three records: the search pads its labels with [-1]
    twice, [meta[-1]] is the last record, and the printed list has five
    entries, the record of c three times. *)
Theorem scenario_k_gt_n m1 x1 m2 x2 m3 x3 context index_dir fs :
  snd (query_mode (scenario_query 5 context) index_dir
         (fst (index_mode (scenario_payload m1 x1 m2 x2 m3 x3)
                 index_dir fs)))
  = Ok (JArr [scenario_record "a" m1 x1; scenario_record "b" m2 x2;
              scenario_record "c" m3 x3; scenario_record "c" m3 x3;
              scenario_record "c" m3 x3]).
Proof.
  rewrite scenario_index_mode. simpl fst.
  rewrite scenario_query_mode, scenario_search_5. done.
Qed.

(** ** Subscripts *)


Lemma list_getitem_minus_one {A} (l : list A) a :
  last l = Some a → list_getitem l (-1) = Ok a.
Proof.
  intros Hlast. rewrite last_lookup in Hlast.
  pose proof (lookup_lt_Some _ _ _ Hlast) as Hlt.
  unfold list_getitem. simpl (0 <=? -1).
  destruct (0 <=? Z.of_nat (length l) + -1) eqn:H0; [|lia].
  destruct (Z.of_nat (length l) + -1 <? Z.of_nat (length l)) eqn:H1; [|lia].
  simpl.
  replace (Z.to_nat (Z.of_nat (length l) + -1)) with (pred (length l)) by lia.
  by rewrite H0, H1, Hlast.
Qed.

(** C5, as the script has it.  [meta[p]] on a list of [L] records raises
    [IndexError] whenever [p >= L] or [p < -L]. *)
Theorem json_getitem_out_of_range (records : list json) (p : Z) :
  Z.of_nat (length records) ≤ p ∨ p < - Z.of_nat (length records) →
  json_getitem (JArr records) p = Raise IndexError.
Proof.
  intros Hp. simpl. unfold list_getitem.
  destruct (0 <=? p) eqn:H0.
  - rewrite H0. simpl.
    destruct (p <? Z.of_nat (length records)) eqn:H1; [lia|done].
  - destruct (0 <=? Z.of_nat (length records) + p) eqn:H1; [lia|done].
Qed.

(** ** More results asked for than vectors stored *)





(** ** Instances and counterexamples *)




Lemma dimension_mismatch_errors_witness :
  index_mode ragged_payload "idx" ∅ = (∅, Raise ValueError)
  ∧ query_mode (QueryDoc (Some [1; 2; 3]%Q) (Some 1) (Some JNull)) "idx"
      scenario_store
    = (scenario_store, Raise AssertionError).
Proof.
  split.
  - apply (proj1 dimension_mismatch_errors ragged_payload
             [scenario_chunk [1; 0]%Q "a" JNull JNull;
              scenario_chunk [1]%Q "b" JNull JNull]
             [[1; 0]; [1]]%Q 0%nat 1%nat [1; 0]%Q [1]%Q "idx" ∅).
    + reflexivity.
    + repeat constructor.
    + reflexivity.
    + reflexivity.
    + simpl. lia.
  - apply (proj2 dimension_mismatch_errors [1; 2; 3]%Q 1 JNull
             scenario_index "idx" scenario_store).
    + vm_compute. reflexivity.
    + simpl. lia.
Defined.


Lemma json_getitem_out_of_range_witness :
  (Z.of_nat (length [JNull; JNull; JNull]) ≤ 3
   ∨ 3 < - Z.of_nat (length [JNull; JNull; JNull]))
  ∧ json_getitem (JArr [JNull; JNull; JNull]) 3 = Raise IndexError.
Proof.
  assert (Z.of_nat (length [JNull; JNull; JNull]) ≤ 3
          ∨ 3 < - Z.of_nat (length [JNull; JNull; JNull])) as Hp
    by (left; simpl; lia).
  split; [exact Hp|].
  exact (json_getitem_out_of_range [JNull; JNull; JNull] 3 Hp).
Defined.

(** An empty batch does not end in an error named EmptyBatch. *)
Lemma empty_batch_not_EmptyBatch :
  ¬ fails_with (snd (index_mode (Payload (Some [])) "idx" ∅)) EmptyBatch.
Proof.
  intros (e & He & Hname). vm_compute in He.
  injection He as <-. discriminate Hname.
Qed.

(** On three records, position [3] does not end in an error named
    OutOfRange, and position [-1] yields the last record. *)
Lemma lookup_not_OutOfRange :
  ¬ fails_with (json_getitem (JArr [JStr "a"; JStr "b"; JStr "c"]) 3)
      OutOfRange
  ∧ json_getitem (JArr [JStr "a"; JStr "b"; JStr "c"]) (-1) = Ok (JStr "c").
Proof.
  split; [|reflexivity].
  intros (e & He & Hname). vm_compute in He.
  injection He as <-. discriminate Hname.
Qed.

(** Neither a ragged batch nor a query of the wrong length ends in an
    error named DimensionMismatch. *)
Lemma mismatch_not_DimensionMismatch :
  ¬ fails_with (snd (index_mode ragged_payload "idx" ∅)) DimensionMismatch
  ∧ ¬ fails_with (snd (query_mode long_query "idx" scenario_store))
        DimensionMismatch.
Proof.
  split; intros (e & He & Hname); vm_compute in He;
    injection He as <-; discriminate Hname.
Qed.


(** * Further properties of the two modes *)

(** ** Failing comprehensions and complete batches *)

Lemma comprehension_raises {A B} (f : A → result B) l e :
  (∃ a, a ∈ l ∧ f a = Raise e) →
  (∀ a e', a ∈ l → f a = Raise e' → e' = e) →
  comprehension f l = Raise e.
Proof.
  induction l as [|a l IH]; intros (a0 & Hin & Hraise) Hall.
  - by apply elem_of_nil in Hin.
  - simpl. destruct (f a) as [b|e'] eqn:Hfa.
    + rewrite IH; [done| |].
      * apply elem_of_cons in Hin as [->|Hin]; [congruence|]. eauto.
      * intros a1 e1 Ha1. apply Hall. by right.
    + f_equal. apply (Hall a e'); [by left|done].
Qed.





(** ** When [index] succeeds *)


(** ** How [index] fails *)

(** A batch in which some chunk has no embedding key fails with
    [KeyError] before anything is written, whatever the other chunks
    hold. *)
Theorem index_mode_missing_embedding data chunks index_dir fs :
  p_chunks data = Some chunks →
  (∃ c, c ∈ chunks ∧ c_embedding c = None) →
  index_mode data index_dir fs = (fs, Raise KeyError).
Proof.
  intros Hchunks (c & Hin & Hnone).
  rewrite index_mode_unfold, Hchunks. simpl.
  rewrite (comprehension_raises _ chunks KeyError); [done| |].
  - exists c. split; [done|]. by rewrite Hnone.
  - intros a e' _. unfold dict_getitem. destruct (c_embedding a); congruence.
Qed.


(** ** Which files [index] touches *)

Lemma index_mode_files data index_dir fs :
  let fs' := fst (index_mode data index_dir fs) in
  fs' = fs
  ∨ (∃ index, fs' = <[index_file index_dir := FaissFile index]> fs)
  ∨ (∃ index meta,
       fs' = <[meta_file index_dir := JsonFile (JArr meta)]>
               (<[index_file index_dir := FaissFile index]> fs)).
Proof.
  rewrite index_mode_unfold.
  destruct (dict_getitem (p_chunks data)) as [chunks|]; [|by left].
  destruct (comprehension _ chunks) as [rows|]; [|by left].
  destruct (np_array rows) as [embeddings|]; [|by left].
  destruct (shape_getitem embeddings 1) as [dim|]; [|by left].
  destruct (add _ embeddings) as [index|]; [|by left].
  destruct (comprehension record_of chunks) as [meta|]; simpl.
  - right. right. by exists index, meta.
  - right. left. by exists index.
Qed.

(** Whatever the payload and the outcome, [index] leaves every file other
    than the two of its directory as it was. *)
Theorem index_mode_frame data index_dir fs (path : string) :
  path ≠ index_file index_dir →
  path ≠ meta_file index_dir →
  fst (index_mode data index_dir fs) !! path = fs !! path.
Proof.
  intros Hi Hm.
  destruct (index_mode_files data index_dir fs)
    as [->|[(index & ->)|(index & meta & ->)]].
  - done.
  - by rewrite lookup_insert_ne.
  - by rewrite !lookup_insert_ne.
Qed.

Lemma overwrite_both (fs : gmap string file) (i m : string) a b x y :
  <[m := y]> (<[i := x]> (<[m := b]> (<[i := a]> fs)))
  = <[m := y]> (<[i := x]> fs).
Proof.
  apply map_eq. intros p.
  destruct (decide (p = m)) as [->|Hm]; [by rewrite !lookup_insert_eq|].
  rewrite (lookup_insert_ne _ m p) by done.
  rewrite (lookup_insert_ne _ m p) by done.
  destruct (decide (p = i)) as [->|Hi]; [by rewrite !lookup_insert_eq|].
  by rewrite !lookup_insert_ne.
Qed.

Lemma index_mode_Ok_any data index_dir fs n :
  snd (index_mode data index_dir fs) = Ok n →
  ∃ index meta, ∀ fs2,
    index_mode data index_dir fs2
    = (<[meta_file index_dir := JsonFile (JArr meta)]>
         (<[index_file index_dir := FaissFile index]> fs2),
       Ok n).
Proof.
  rewrite index_mode_unfold.
  destruct (dict_getitem (p_chunks data)) as [chunks|] eqn:H1; [|done].
  destruct (comprehension _ chunks) as [rows|] eqn:H2; [|done].
  destruct (np_array rows) as [embeddings|] eqn:H3; [|done].
  destruct (shape_getitem embeddings 1) as [dim|] eqn:H4; [|done].
  destruct (add _ embeddings) as [index|] eqn:H5; [|done].
  destruct (comprehension record_of chunks) as [meta|] eqn:H6; [|done].
  simpl. intros [= <-]. exists index, meta. intros fs2.
  by rewrite index_mode_unfold, H1, H2, H3, H4, H5, H6.
Qed.

(** A successful [index] run replaces whatever an earlier run in the same
    directory left, complete or half written: the files and the report
    are those of the later run alone. *)
Theorem index_mode_replaces data0 data index_dir fs n :
  snd (index_mode data index_dir fs) = Ok n →
  index_mode data index_dir (fst (index_mode data0 index_dir fs))
  = index_mode data index_dir fs.
Proof.
  intros (index & meta & Hrun)%index_mode_Ok_any.
  rewrite !Hrun. f_equal.
  destruct (index_mode_files data0 index_dir fs)
    as [->|[(index0 & ->)|(index0 & meta0 & ->)]].
  - done.
  - by rewrite insert_insert_eq.
  - apply overwrite_both.
Qed.

(** ** What [search] keeps *)

Section Nearest.
Variable index : IndexFlatL2.
Variable x : list Q.
Variable k : Z.

Lemma nearest_length :
  length (nearest index x k) = Nat.min (Z.to_nat k) (ntotal index).
Proof.
  unfold nearest. by rewrite length_take, length_sorted_distances.
Qed.






Lemma search_Ok_inv DI :
  search index x k = Ok DI →
  length x = d index ∧ 0 < k
  ∧ snd DI = map (λ e, Z.of_nat (fst e)) (nearest index x k)
               ++ replicate (Z.to_nat k - length (nearest index x k)) (-1).
Proof.
  unfold search.
  destruct (Nat.eqb (length x) (d index)) eqn:Hdim; [|done].
  destruct (0 <? k) eqn:Hk; [|done]. simpl.
  intros [= <-]. apply Nat.eqb_eq in Hdim. split_and!; [done|lia|done].
Qed.

End Nearest.

(** ** Subscripts that succeed and subscripts that raise *)

Lemma list_getitem_elem {A} (l : list A) i a :
  list_getitem l i = Ok a → a ∈ l.
Proof.
  unfold list_getitem.
  destruct (_ && _); [|done].
  destruct (l !! _) eqn:Hl; [|done].
  intros [= <-]. by eapply list_elem_of_lookup_2.
Qed.


Lemma list_getitem_past_end {A} (l : list A) (i : nat) :
  (length l ≤ i)%nat → list_getitem l (Z.of_nat i) = Raise IndexError.
Proof.
  intros Hi. unfold list_getitem.
  destruct (0 <=? Z.of_nat i) eqn:H0; [|lia].
  rewrite H0. simpl.
  by destruct (Z.of_nat i <? Z.of_nat (length l)) eqn:H1; [lia|].
Qed.


(** ** Queries over a store whose two files have the same length *)


(** ** How [query] fails and what it prints *)

(** A query document without an embedding, without [k] or without a
    context fails with [KeyError] before any file is opened; the context
    is required although the retrieval never uses it. *)
Theorem query_mode_missing_key query_json index_dir fs :
  q_embedding query_json = None ∨ q_k query_json = None
  ∨ q_context query_json = None →
  query_mode query_json index_dir fs = (fs, Raise KeyError).
Proof.
  intros Hnone. rewrite query_mode_unfold. unfold dict_getitem.
  destruct (q_embedding query_json); [|done].
  destruct (q_k query_json); [|done].
  destruct (q_context query_json); [|done].
  by destruct Hnone as [?|[?|?]].
Qed.


(** A query that succeeds has [k >= 1], leaves the files as they were and
    prints a list of exactly [k] entries; when the metadata file holds a
    list, every printed entry is one of its records. *)
Theorem query_mode_output query_json index_dir fs fs' doc :
  query_mode query_json index_dir fs = (fs', Ok doc) →
  ∃ k results,
    q_k query_json = Some k
    ∧ 1 ≤ k
    ∧ fs' = fs
    ∧ doc = JArr results
    ∧ length results = Z.to_nat k
    ∧ ∀ records,
        fs !! meta_file index_dir = Some (JsonFile (JArr records)) →
        ∀ r, r ∈ results → r ∈ records.
Proof.
  rewrite query_mode_unfold. unfold dict_getitem.
  destruct (q_embedding query_json) as [q_emb|]; [|done].
  destruct (q_k query_json) as [k|]; [|done].
  destruct (q_context query_json) as [context|]; [|done].
  destruct (fs !! index_file index_dir) as [[index|?]|]; [|done..].
  destruct (search index q_emb k) as [DI|] eqn:Hsearch; [|done].
  destruct (fs !! meta_file index_dir) as [[?|meta]|]; [done| |done].
  destruct (comprehension (json_getitem meta) (snd DI)) as [results|]
    eqn:Hresults; [|done].
  intros [= <- <-].
  apply search_Ok_inv in Hsearch as (_ & Hk & HI).
  exists k, results. split_and!; try done; [lia| |].
  - rewrite (comprehension_length _ _ _ Hresults), HI.
    rewrite length_app, length_map, length_replicate, nearest_length. lia.
  - intros records [= ->] r Hr.
    apply comprehension_Ok in Hresults.
    apply list_elem_of_lookup_1 in Hr as [i Hi].
    destruct (Forall2_lookup_r _ _ _ _ _ Hresults Hi) as (l & _ & Hl).
    simpl in Hl. by eapply list_getitem_elem.
Qed.



(** ** Index, then query *)







(** ** The two file names *)

Lemma prefix_append (a s : string) : String.prefix a (a +:+ s) = true.
Proof.
  induction a as [|c a IH]; simpl; [by destruct s|].
  by destruct (Ascii.ascii_dec c c).
Qed.

(** The index file and the metadata file of a directory are two different
    paths, and both extend the directory's path. *)
Theorem store_files index_dir :
  index_file index_dir ≠ meta_file index_dir
  ∧ String.prefix index_dir (index_file index_dir) = true
  ∧ String.prefix index_dir (meta_file index_dir) = true.
Proof.
  split; [apply index_file_ne_meta_file|].
  unfold index_file, meta_file, path_join.
  destruct (Ascii.ascii_dec "f" "/") as [?|_]; [done|].
  destruct (Ascii.ascii_dec "m" "/") as [?|_]; [done|].
  destruct (String.eqb index_dir "" || ends_with_slash index_dir);
    split; apply prefix_append.
Qed.

(** ** The command line *)

Section CommandLineFacts.
Variable load_payload : string → gmap string file → result payload.
Variable loads_query : string → result query_doc.

Lemma last_argument (argv : list string) mode :
  list_getitem argv 1 = Ok mode →
  ∃ index_dir, list_getitem argv (-1) = Ok index_dir.
Proof.
  intros Hmode%list_getitem_elem.
  assert (argv ≠ []) as Hne by (intros ->; by apply elem_of_nil in Hmode).
  destruct (proj2 (last_is_Some argv) Hne) as [index_dir Hlast].
  exists index_dir. by apply list_getitem_minus_one.
Qed.

(** A mode other than index and query makes the script do nothing: it
    ends without an error, without output and without touching a file. *)
Theorem main_unknown_mode (argv : list string) mode fs :
  list_getitem argv 1 = Ok mode →
  mode ≠ "index" →
  mode ≠ "query" →
  main load_payload loads_query argv fs = (fs, Ok Nothing).
Proof.
  intros Hmode Hi Hq.
  destruct (last_argument argv mode Hmode) as [index_dir Hdir].
  unfold main, bind, lift, ret. rewrite Hmode, Hdir.
  apply String.eqb_neq in Hi, Hq. by rewrite Hi, Hq.
Qed.

(** Without a mode, or in either mode without a third argument, the
    script fails with [IndexError] before it reads or writes a file. *)
Theorem main_too_few_arguments (argv : list string) fs :
  (length argv < 2)%nat
  ∨ (length argv = 2%nat
     ∧ (argv !! 1%nat = Some "index" ∨ argv !! 1%nat = Some "query")) →
  main load_payload loads_query argv fs = (fs, Raise IndexError).
Proof.
  intros [Hshort|[Hlen Hmode]].
  - pose proof (list_getitem_past_end argv 1 ltac:(lia)) as Hmode.
    change (Z.of_nat 1) with 1 in Hmode.
    unfold main, bind, lift. by rewrite Hmode.
  - destruct argv as [|script [|mode [|? ?]]]; try done.
    simpl in Hmode. by destruct Hmode as [[= ->]|[= ->]].
Qed.

(** Only the index mode writes: with any other mode, and in every
    failure before the mode is known, the files are left as they were. *)
Theorem main_writes_only_in_index_mode (argv : list string) fs :
  list_getitem argv 1 ≠ Ok "index" →
  fst (main load_payload loads_query argv fs) = fs.
Proof.
  intros Hmode. unfold main, bind, lift, ret.
  destruct (list_getitem argv 1) as [mode|]; [|done].
  destruct (list_getitem argv (-1)) as [index_dir|]; [|done].
  destruct (String.eqb mode "index") eqn:Hi.
  { apply String.eqb_eq in Hi. congruence. }
  destruct (String.eqb mode "query"); [|done].
  destruct (list_getitem argv 2) as [arg|]; [|done].
  destruct (loads_query arg) as [query_json|]; [|done].
  pose proof (query_mode_read_only query_json index_dir fs) as Hro.
  destruct (query_mode query_json index_dir fs) as [fs' [results|]];
    simpl in *; done.
Qed.

End CommandLineFacts.

(** ** Instances of the further properties *)


Lemma index_mode_missing_embedding_witness :
  index_mode
    (Payload (Some [scenario_chunk [1; 0]%Q "a" JNull JNull;
                    Chunk None (Some (JStr "b")) (Some JNull) (Some JNull)]))
    "idx" scenario_store
  = (scenario_store, Raise KeyError).
Proof.
  apply (index_mode_missing_embedding _
           [scenario_chunk [1; 0]%Q "a" JNull JNull;
            Chunk None (Some (JStr "b")) (Some JNull) (Some JNull)]).
  - reflexivity.
  - exists (Chunk None (Some (JStr "b")) (Some JNull) (Some JNull)).
    split; [|reflexivity]. apply list_elem_of_further, list_elem_of_here.
Defined.


Lemma index_mode_frame_witness :
  fst (index_mode single_payload "idx" scenario_store) !! "notes.txt"
  = scenario_store !! "notes.txt".
Proof.
  apply (index_mode_frame single_payload "idx" scenario_store "notes.txt").
  - vm_compute. discriminate.
  - vm_compute. discriminate.
Defined.

Lemma index_mode_replaces_witness :
  index_mode single_payload "idx"
    (fst (index_mode textless_payload "idx" scenario_store))
  = index_mode single_payload "idx" scenario_store.
Proof.
  apply (index_mode_replaces textless_payload single_payload "idx"
           scenario_store 1%nat).
  vm_compute. reflexivity.
Defined.

Lemma query_mode_missing_key_witness :
  query_mode (QueryDoc (Some [9 # 10; 1 # 10]%Q) (Some 2) None) "idx"
    scenario_store
  = (scenario_store, Raise KeyError).
Proof.
  apply (query_mode_missing_key
           (QueryDoc (Some [9 # 10; 1 # 10]%Q) (Some 2) None)
           "idx" scenario_store).
  right. right. reflexivity.
Defined.


Lemma query_mode_output_witness :
  ∃ k results,
    q_k (scenario_query 2 JNull) = Some k
    ∧ 1 ≤ k
    ∧ scenario_store = scenario_store
    ∧ JArr [scenario_record "a" JNull JNull; scenario_record "b" JNull JNull]
      = JArr results
    ∧ length results = Z.to_nat k
    ∧ ∀ records,
        scenario_store !! meta_file "idx" = Some (JsonFile (JArr records)) →
        ∀ r, r ∈ results → r ∈ records.
Proof.
  apply (query_mode_output (scenario_query 2 JNull) "idx" scenario_store
           scenario_store
           (JArr [scenario_record "a" JNull JNull;
                  scenario_record "b" JNull JNull])).
  vm_compute. reflexivity.
Defined.






Lemma main_unknown_mode_witness :
  main (λ _ _, Raise ValueError) (λ _, Raise ValueError)
    ["embeddings_faiss.py"; "rebuild"; "payload.json"; "idx"] scenario_store
  = (scenario_store, Ok Nothing).
Proof.
  apply (main_unknown_mode (λ _ _, Raise ValueError) (λ _, Raise ValueError)
           ["embeddings_faiss.py"; "rebuild"; "payload.json"; "idx"]
           "rebuild" scenario_store).
  - reflexivity.
  - discriminate.
  - discriminate.
Defined.

Lemma main_too_few_arguments_witness :
  main (λ _ _, Raise ValueError) (λ _, Raise ValueError)
    ["embeddings_faiss.py"; "query"] scenario_store
  = (scenario_store, Raise IndexError).
Proof.
  apply (main_too_few_arguments (λ _ _, Raise ValueError)
           (λ _, Raise ValueError)
           ["embeddings_faiss.py"; "query"] scenario_store).
  right. split; [reflexivity|]. right. reflexivity.
Defined.

Lemma main_writes_only_in_index_mode_witness :
  fst (main (λ _ _, Raise ValueError)
         (λ _, Ok (scenario_query 2 JNull))
         ["embeddings_faiss.py"; "query"; "{}"; "idx"] scenario_store)
  = scenario_store.
Proof.
  apply (main_writes_only_in_index_mode (λ _ _, Raise ValueError)
           (λ _, Ok (scenario_query 2 JNull))
           ["embeddings_faiss.py"; "query"; "{}"; "idx"] scenario_store).
  vm_compute. discriminate.
Defined.

